(** * xknx.devices.light: capability composition and bus synchronisation

    A shallow embedding of [src/xknx/devices/light.py].  The class [Light]
    owns six remote values (one per feature), gates every outbound command
    on the feature's [initialized] flag, fans every inbound telegram out
    to all six remote values and interprets textual actions.

    Python objects are embedded as follows.
    - A value that may be [None] is an [option].
    - Methods that log, call a collaborator or mutate [self] are
      computations in a small monad [M] that threads the [Light], appends
      to a trace of observable events and may end in a Python exception.
    - Properties without effects are plain functions of the [Light].
    - [await] is sequencing: the event loop runs one coroutine of a device
      to completion before the next one. *)

From Stdlib Require Import ZArith Ascii String.
From stdpp Require Import base option list strings gmap.

Local Open Scope Z_scope.

(** ** Python values *)

(** The dynamically typed values that flow through a light: switch
    states, scaled integers, address and configuration strings, and
    colour tuples or lists (sequences of integers). *)
Inductive Value : Type :=
  | VBool (b : bool)
  | VInt (n : Z)
  | VStr (s : string)
  | VSeq (xs : list Z).

#[global] Instance Value_eq_dec : EqDecision Value.
Proof. solve_decision. Defined.

(** Truth value of an object-or-[None], as tested by [if not x]. *)
Definition truthy (v : option Value) : bool :=
  match v with
  | None => false
  | Some (VBool b) => b
  | Some (VInt n) => negb (n =? 0)
  | Some (VStr s) => negb (String.eqb s "")
  | Some (VSeq xs) => negb (Nat.eqb (length xs) 0)
  end.

(** Python exceptions that the embedded code can raise. *)
Inductive Exception : Type :=
  | ValueError (literal : string)
  | TypeError
  | IndexError.

Inductive Outcome (A : Type) : Type :=
  | Returned (a : A)
  | Raised (e : Exception).
Arguments Returned {A} a.
Arguments Raised {A} e.

(** ** Builtins on strings *)

Module Py.

(** [s[n:]] for [0 <= n]. *)
Fixpoint slice_from (n : nat) (s : string) : string :=
  match n, s with
  | O, _ => s
  | S _, EmptyString => EmptyString
  | S n', String _ s' => slice_from n' s'
  end.

(** [s.startswith(p)]. *)
Definition startswith (s p : string) : bool := String.prefix p s.

(** [Py_ISSPACE]: space, tab, newline, vertical tab, form feed, return. *)
Definition isspace (c : ascii) : bool :=
  let n := nat_of_ascii c in
  (Nat.leb 9 n && Nat.leb n 13) || Nat.eqb n 32.

Definition digit_value (c : ascii) : option Z :=
  let n := nat_of_ascii c in
  if Nat.leb 48 n && Nat.leb n 57 then Some (Z.of_nat n - 48) else None.

Definition is_underscore (c : ascii) : bool := Nat.eqb (nat_of_ascii c) 95.

Fixpoint lstrip (s : string) : string :=
  match s with
  | String c s' => if isspace c then lstrip s' else s
  | EmptyString => EmptyString
  end.

Fixpoint all_space (s : string) : bool :=
  match s with
  | String c s' => isspace c && all_space s'
  | EmptyString => true
  end.

(** The digit loop of [PyLong_FromString] in base 10: digits with single
    underscores between them; [prev_us] records that the previous
    character was an underscore.  Whatever follows the digits must be
    white space up to the end of the string. *)
Fixpoint digits (acc : Z) (prev_us : bool) (s : string) : option Z :=
  match s with
  | EmptyString => if prev_us then None else Some acc
  | String c s' =>
      match digit_value c with
      | Some d => digits (acc * 10 + d) false s'
      | None =>
          if is_underscore c then
            if prev_us then None else digits acc true s'
          else if prev_us then None
          else if all_space s then Some acc else None
      end
  end.

(** After the sign: the literal may not start with an underscore and
    needs at least one digit. *)
Definition unsigned (s : string) : option Z :=
  match s with
  | String c s' =>
      match digit_value c with
      | Some d => digits d false s'
      | None => None
      end
  | EmptyString => None
  end.

(** [int(s)] for an ASCII string [s]: optional white space, an optional
    sign, the digits, optional white space; [None] stands for
    [ValueError].  Digits and white space outside ASCII, which [int]
    also accepts, and the limit that recent interpreters put on the
    number of digits are not modelled. *)
Definition int (s : string) : option Z :=
  match lstrip s with
  | String "+" s' => unsigned s'
  | String "-" s' => Z.opp <$> unsigned s'
  | s' => unsigned s'
  end.

(** Every character is ASCII (code below 128). *)
Fixpoint isascii (s : string) : bool :=
  match s with
  | String c s' => Nat.ltb (nat_of_ascii c) 128 && isascii s'
  | EmptyString => true
  end.

End Py.

(** ** Data model *)

(** The six feature slots of a light, in the order of their declaration
    in [Light.__init__].  A [Feature] is the reference through which
    the light reaches the remote value it owns. *)
Inductive Feature : Type :=
  | Switch
  | Brightness
  | Color
  | Rgbw
  | TunableWhite
  | ColorTemperature.

#[global] Instance Feature_eq_dec : EqDecision Feature.
Proof. solve_decision. Defined.

(** Group addresses are compared as Python values. *)
Definition GroupAddress : Type := Value.

(** Raw bytes of a group write. *)
Definition Payload : Type := list Z.

Record Telegram : Type := {
  destination : GroupAddress;
  payload : Payload
}.

#[global] Instance Telegram_eq_dec : EqDecision Telegram.
Proof. solve_decision. Defined.

(** Modelled from the spec: the state of a remote value (the classes of
    [xknx.remote_value] are imported by the light but not part of it).
    A slot holds an optional write address, an optional state address,
    the last known decoded value and the [initialized] flag. *)
Record RemoteValue : Type := {
  group_address : option GroupAddress;
  group_address_state : option GroupAddress;
  value : option Value;
  initialized : bool
}.

(** Modelled from the spec: the constructor of a remote value.  The flag
    is set iff at least one of the two addresses was supplied, and
    nothing has been received yet. *)
Definition RemoteValue_init (ga gas : option GroupAddress) : RemoteValue :=
  {| group_address := ga;
     group_address_state := gas;
     value := None;
     initialized := bool_decide (is_Some ga) || bool_decide (is_Some gas) |}.

Definition with_value (v : option Value) (rv : RemoteValue) : RemoteValue :=
  {| group_address := group_address rv;
     group_address_state := group_address_state rv;
     value := v;
     initialized := initialized rv |}.

(** Modelled from the spec: the parts of a remote value that depend on
    the wire format of its feature, which the light treats as opaque:
    the decoder of a payload and the address summary used by [__str__]. *)
Class Codec : Type := {
  from_knx : Feature -> Payload -> Value;
  group_addr_str : RemoteValue -> string
}.

Record Light : Type := {
  name : string;
  switch : RemoteValue;
  brightness : RemoteValue;
  color : RemoteValue;
  rgbw : RemoteValue;
  tunable_white : RemoteValue;
  color_temperature : RemoteValue;
  min_kelvin : option Value;
  max_kelvin : option Value
}.

(** Dereferencing a slot reference, and assigning through it. *)
Definition slot (f : Feature) (self : Light) : RemoteValue :=
  match f with
  | Switch => switch self
  | Brightness => brightness self
  | Color => color self
  | Rgbw => rgbw self
  | TunableWhite => tunable_white self
  | ColorTemperature => color_temperature self
  end.

Definition set_slot (f : Feature) (rv : RemoteValue) (self : Light) : Light :=
  let pick g := if decide (f = g) then rv else slot g self in
  {| name := name self;
     switch := pick Switch;
     brightness := pick Brightness;
     color := pick Color;
     rgbw := pick Rgbw;
     tunable_white := pick TunableWhite;
     color_temperature := pick ColorTemperature;
     min_kelvin := min_kelvin self;
     max_kelvin := max_kelvin self |}.

(** ** Effects *)

(** What an observer of a light can see: log records, calls of the
    primitives of a slot and notifications of the device callback. *)
Inductive Event : Type :=
  | Warning (fmt : string) (args : list string)
  | CallOn (f : Feature)
  | CallOff (f : Feature)
  | CallSet (f : Feature) (v : Value)
  | CallProcess (f : Feature) (t : Telegram)
  | AfterUpdate (device : string).

#[global] Instance Event_eq_dec : EqDecision Event.
Proof. solve_decision. Defined.

(** The result of running a method: how it ended, the light afterwards
    and the events in the order they happened. *)
Record Run (A : Type) : Type := {
  outcome : Outcome A;
  after : Light;
  trace : list Event
}.
Arguments Build_Run {A} _ _ _.
Arguments outcome {A} _.
Arguments after {A} _.
Arguments trace {A} _.

Definition M (A : Type) : Type := Light -> Run A.

#[global] Instance M_ret : MRet M := fun A a self =>
  {| outcome := Returned a; after := self; trace := [] |}.

#[global] Instance M_bind : MBind M := fun A B k m self =>
  let r := m self in
  match outcome r with
  | Returned a =>
      let r' := k a (after r) in
      {| outcome := outcome r'; after := after r'; trace := trace r ++ trace r' |}
  | Raised e =>
      {| outcome := Raised e; after := after r; trace := trace r |}
  end.

Definition get_self : M Light := fun self =>
  {| outcome := Returned self; after := self; trace := [] |}.

Definition emit (e : Event) : M unit := fun self =>
  {| outcome := Returned tt; after := self; trace := [e] |}.

Definition raise {A : Type} (e : Exception) : M A := fun self =>
  {| outcome := Raised e; after := self; trace := [] |}.

(** Mutation of the object behind the slot reference [f]. *)
Definition put_slot (f : Feature) (rv : RemoteValue) : M unit := fun self =>
  {| outcome := Returned tt; after := set_slot f rv self; trace := [] |}.

(** [for x in xs: await body(x)]. *)
Fixpoint for_each {A : Type} (xs : list A) (body : A -> M unit) : M unit :=
  match xs with
  | [] => mret tt
  | x :: xs' => body x ≫= λ _, for_each xs' body
  end.

(** [logger.warning(fmt, *args)]. *)
Definition warning (fmt : string) (args : list string) : M unit :=
  emit (Warning fmt args).

(** [int(s)] as a computation. *)
Definition int (s : string) : M Z :=
  match Py.int s with
  | Some n => mret n
  | None => raise (ValueError s)
  end.

(** ** Primitives of a slot *)

(** Modelled from the spec: [has_group_address], the match of a
    destination against the configured write and state addresses. *)
Definition has_group_address (rv : RemoteValue) (ga : GroupAddress) : bool :=
  bool_decide (group_address rv = Some ga)
  || bool_decide (group_address_state rv = Some ga).

(** Modelled from the spec: the effect of [process] on the slot itself.
    No match: nothing happens.  Match: the payload is decoded, the cached
    value is replaced, and the result says whether the decoded value
    differs from the prior cached one. *)
Definition process_slot (decode : Payload -> Value) (t : Telegram)
    (rv : RemoteValue) : RemoteValue * bool :=
  if has_group_address rv (destination t) then
    let v := decode (payload t) in
    (with_value (Some v) rv, bool_decide (value rv ≠ Some v))
  else (rv, false).

(** Modelled from the spec: [Device.after_update], which notifies the
    device callback with the identity of the device. *)
Definition after_update : M unit := fun self =>
  {| outcome := Returned tt; after := self; trace := [AfterUpdate (name self)] |}.

(** Modelled from the spec: [remote_value.process(telegram)], called
    through the reference [f]; the callback fires on a genuine change. *)
Definition process `{Codec} (f : Feature) (t : Telegram) : M unit :=
  emit (CallProcess f t) ≫= λ _,
  get_self ≫= λ self,
  let '(rv, changed) := process_slot (from_knx f) t (slot f self) in
  put_slot f rv ≫= λ _,
  if changed then after_update else mret tt.

(** Modelled from the spec: the write primitives [on()], [off()] and
    [set(value)]; each hands one write request to the bus.  The cached
    value only follows what is received. *)
Definition on (f : Feature) : M unit := emit (CallOn f).
Definition off (f : Feature) : M unit := emit (CallOff f).
Definition set (f : Feature) (v : Value) : M unit := emit (CallSet f v).

(** Modelled from the spec: [Device.get_name]. *)
Definition get_name (self : Light) : string := name self.

(** ** The class [Light] *)

Definition DEFAULT_MIN_KELVIN : Z := 2700.
Definition DEFAULT_MAX_KELVIN : Z := 6000.

(** The keyword arguments of [Light.__init__]; every one defaults to
    [None]. *)
Record InitArgs : Type := {
  group_address_switch : option GroupAddress;
  group_address_switch_state : option GroupAddress;
  group_address_brightness : option GroupAddress;
  group_address_brightness_state : option GroupAddress;
  group_address_color : option GroupAddress;
  group_address_color_state : option GroupAddress;
  group_address_rgbw : option GroupAddress;
  group_address_rgbw_state : option GroupAddress;
  group_address_tunable_white : option GroupAddress;
  group_address_tunable_white_state : option GroupAddress;
  group_address_color_temperature : option GroupAddress;
  group_address_color_temperature_state : option GroupAddress;
  arg_min_kelvin : option Value;
  arg_max_kelvin : option Value
}.

(** A call that passes no keyword argument at all. *)
Definition no_args : InitArgs :=
  {| group_address_switch := None;
     group_address_switch_state := None;
     group_address_brightness := None;
     group_address_brightness_state := None;
     group_address_color := None;
     group_address_color_state := None;
     group_address_rgbw := None;
     group_address_rgbw_state := None;
     group_address_tunable_white := None;
     group_address_tunable_white_state := None;
     group_address_color_temperature := None;
     group_address_color_temperature_state := None;
     arg_min_kelvin := None;
     arg_max_kelvin := None |}.

(** The write and the state address that [__init__] hands to the slot
    of a feature. *)
Definition write_address (f : Feature) (a : InitArgs) : option GroupAddress :=
  match f with
  | Switch => group_address_switch a
  | Brightness => group_address_brightness a
  | Color => group_address_color a
  | Rgbw => group_address_rgbw a
  | TunableWhite => group_address_tunable_white a
  | ColorTemperature => group_address_color_temperature a
  end.

Definition state_address (f : Feature) (a : InitArgs) : option GroupAddress :=
  match f with
  | Switch => group_address_switch_state a
  | Brightness => group_address_brightness_state a
  | Color => group_address_color_state a
  | Rgbw => group_address_rgbw_state a
  | TunableWhite => group_address_tunable_white_state a
  | ColorTemperature => group_address_color_temperature_state a
  end.

(** [Light.__init__(xknx, name, ...)]. *)
Definition __init__ (name : string) (a : InitArgs) : Light :=
  {| name := name;
     switch :=
       RemoteValue_init (group_address_switch a) (group_address_switch_state a);
     brightness :=
       RemoteValue_init (group_address_brightness a)
         (group_address_brightness_state a);
     color :=
       RemoteValue_init (group_address_color a) (group_address_color_state a);
     rgbw :=
       RemoteValue_init (group_address_rgbw a) (group_address_rgbw_state a);
     tunable_white :=
       RemoteValue_init (group_address_tunable_white a)
         (group_address_tunable_white_state a);
     color_temperature :=
       RemoteValue_init (group_address_color_temperature a)
         (group_address_color_temperature_state a);
     min_kelvin := arg_min_kelvin a;
     max_kelvin := arg_max_kelvin a |}.

(** [Light._iter_remote_values]: the references to the six slots. *)
Definition _iter_remote_values : list Feature :=
  [Switch; Brightness; Color; Rgbw; TunableWhite; ColorTemperature].

Definition supports_brightness (self : Light) : bool :=
  initialized (brightness self).
Definition supports_color (self : Light) : bool :=
  initialized (color self).
Definition supports_rgbw (self : Light) : bool :=
  initialized (rgbw self).
Definition supports_tunable_white (self : Light) : bool :=
  initialized (tunable_white self).
Definition supports_color_temperature (self : Light) : bool :=
  initialized (color_temperature self).

(** A configuration structure: a dictionary from keys to objects, some
    of which may be [None]. *)
Abbreviation Config := (gmap string (option Value)).

(** [config.get(key)] and [config.get(key, default)]. *)
Definition config_get (config : Config) (key : string) : option Value :=
  match config !! key with
  | Some v => v
  | None => None
  end.

Definition config_get_default (config : Config) (key : string)
    (dflt : Value) : option Value :=
  match config !! key with
  | Some v => v
  | None => Some dflt
  end.

(** [Light.from_config(xknx, name, config)]. *)
Definition from_config (name : string) (config : Config) : Light :=
  let group_address_switch := config_get config "group_address_switch" in
  let group_address_switch_state :=
    config_get config "group_address_switch_state" in
  let group_address_brightness := config_get config "group_address_brightness" in
  let group_address_brightness_state :=
    config_get config "group_address_brightness_state" in
  let group_address_color := config_get config "group_address_color" in
  let group_address_color_state :=
    config_get config "group_address_color_state" in
  let group_address_rgbw := config_get config "group_address_rgbw" in
  let group_address_rgbw_state := config_get config "group_address_rgbw_state" in
  let group_address_tunable_white :=
    config_get config "group_address_tunable_white" in
  let group_address_tunable_white_state :=
    config_get config "group_address_tunable_white_state" in
  let group_address_color_temperature :=
    config_get config "group_address_color_temperature" in
  let group_address_color_temperature_state :=
    config_get config "group_address_color_temperature_state" in
  let min_kelvin :=
    config_get_default config "min_kelvin" (VInt DEFAULT_MIN_KELVIN) in
  let max_kelvin :=
    config_get_default config "max_kelvin" (VInt DEFAULT_MAX_KELVIN) in
  __init__ name
    {| group_address_switch := group_address_switch;
       group_address_switch_state := group_address_switch_state;
       group_address_brightness := group_address_brightness;
       group_address_brightness_state := group_address_brightness_state;
       group_address_color := group_address_color;
       group_address_color_state := group_address_color_state;
       group_address_rgbw := group_address_rgbw;
       group_address_rgbw_state := group_address_rgbw_state;
       group_address_tunable_white := group_address_tunable_white;
       group_address_tunable_white_state := group_address_tunable_white_state;
       group_address_color_temperature := group_address_color_temperature;
       group_address_color_temperature_state :=
         group_address_color_temperature_state;
       arg_min_kelvin := min_kelvin;
       arg_max_kelvin := max_kelvin |}.

(** The double quote, which the format strings of [__str__] contain. *)
Definition dquote : string := String (ascii_of_nat 34) EmptyString.

(** [Light.__str__]. *)
Definition __str__ `{Codec} (self : Light) : string :=
  let str_brightness :=
    if negb (supports_brightness self) then ""
    else " brightness=" +:+ dquote +:+ group_addr_str (brightness self) +:+ dquote in
  let str_color :=
    if negb (supports_color self) then ""
    else " color=" +:+ dquote +:+ group_addr_str (color self) +:+ dquote in
  let str_rgbw :=
    if negb (supports_rgbw self) then ""
    else " rgbw=" +:+ dquote +:+ group_addr_str (rgbw self) +:+ dquote in
  let str_tunable_white :=
    if negb (supports_tunable_white self) then ""
    else " tunable white=" +:+ dquote
         +:+ group_addr_str (tunable_white self) +:+ dquote in
  let str_color_temperature :=
    if negb (supports_color_temperature self) then ""
    else " color temperature=" +:+ dquote
         +:+ group_addr_str (color_temperature self) +:+ dquote in
  "<Light name=" +:+ dquote +:+ name self +:+ dquote
  +:+ " switch=" +:+ dquote +:+ group_addr_str (switch self) +:+ dquote
  +:+ str_brightness +:+ str_color +:+ str_rgbw +:+ str_tunable_white
  +:+ str_color_temperature +:+ " />".

(** [Light.state]: [None] gives [False]. *)
Definition state (self : Light) : bool := truthy (value (switch self)).

Definition set_on : M unit := on Switch.

Definition set_off : M unit := off Switch.

Definition current_brightness (self : Light) : option Value :=
  value (brightness self).

Definition set_brightness (brightness : Value) : M unit :=
  self ← get_self;
  if negb (supports_brightness self) then
    warning "Dimming not supported for device %s" [get_name self]
  else set Brightness brightness.

(** [v[:n]] and [v[i]] for [0 <= i] on a Python value. *)
Definition slice_to (n : nat) (v : Value) : Outcome Value :=
  match v with
  | VSeq xs => Returned (VSeq (take n xs))
  | VStr s => Returned (VStr (String.substring 0 n s))
  | _ => Raised TypeError
  end.

Definition index (i : nat) (v : Value) : Outcome Value :=
  match v with
  | VSeq xs =>
      match xs !! i with
      | Some x => Returned (VInt x)
      | None => Raised IndexError
      end
  | VStr s =>
      match String.get i s with
      | Some c => Returned (VStr (String c EmptyString))
      | None => Raised IndexError
      end
  | _ => Raised TypeError
  end.

(** [Light.current_color]: the pair of the colour and the white value. *)
Definition current_color (self : Light)
    : Outcome (option Value * option Value) :=
  if supports_rgbw self then
    if negb (truthy (value (rgbw self))) then Returned (None, None)
    else
      match value (rgbw self) with
      | Some v =>
          match slice_to 3 v with
          | Returned rgb =>
              match index 3 v with
              | Returned w => Returned (Some rgb, Some w)
              | Raised e => Raised e
              end
          | Raised e => Raised e
          end
      | None => Returned (None, None)
      end
  else Returned (value (color self), None).

Definition set_color (color : list Z) (white : option Z) : M unit :=
  self ← get_self;
  match white with
  | Some white =>
      if supports_rgbw self then set Rgbw (VSeq (color ++ [white]))
      else warning "RGBW not supported for device %s" [get_name self]
  | None =>
      if supports_color self then set Color (VSeq color)
      else warning "Colors not supported for device %s" [get_name self]
  end.

Definition current_tunable_white (self : Light) : option Value :=
  value (tunable_white self).

Definition set_tunable_white (tunable_white : Value) : M unit :=
  self ← get_self;
  if negb (supports_tunable_white self) then
    warning "Tunable white not supported for device %s" [get_name self]
  else set TunableWhite tunable_white.

Definition current_color_temperature (self : Light) : option Value :=
  value (color_temperature self).

Definition set_color_temperature (color_temperature : Value) : M unit :=
  self ← get_self;
  if negb (supports_color_temperature self) then
    warning "Absolute Color Temperature not supported for device %s"
      [get_name self]
  else set ColorTemperature color_temperature.

(** [Light.do]. *)
Definition do (action : string) : M unit :=
  if String.eqb action "on" then set_on
  else if String.eqb action "off" then set_off
  else if Py.startswith action "brightness:" then
    n ← int (Py.slice_from 11 action);
    set_brightness (VInt n)
  else if Py.startswith action "tunable_white:" then
    n ← int (Py.slice_from 14 action);
    set_tunable_white (VInt n)
  else if Py.startswith action "color_temperature:" then
    n ← int (Py.slice_from 18 action);
    set_color_temperature (VInt n)
  else
    self ← get_self;
    warning "Could not understand action %s for device %s"
      [action; get_name self].

(** [Light.process_group_write]. *)
Definition process_group_write `{Codec} (telegram : Telegram) : M unit :=
  for_each _iter_remote_values (λ remote_value, process remote_value telegram).

(** ** Operations, reachable lights and observations *)

(** The operations a caller can invoke on a constructed light. *)
Inductive Op : Type :=
  | OpSetOn
  | OpSetOff
  | OpSetBrightness (brightness : Value)
  | OpSetColor (color : list Z) (white : option Z)
  | OpSetTunableWhite (tunable_white : Value)
  | OpSetColorTemperature (color_temperature : Value)
  | OpDo (action : string)
  | OpProcessGroupWrite (telegram : Telegram)
  | OpStr.

Definition run_op `{Codec} (o : Op) : M unit :=
  match o with
  | OpSetOn => set_on
  | OpSetOff => set_off
  | OpSetBrightness v => set_brightness v
  | OpSetColor c w => set_color c w
  | OpSetTunableWhite v => set_tunable_white v
  | OpSetColorTemperature v => set_color_temperature v
  | OpDo action => do action
  | OpProcessGroupWrite t => process_group_write t
  | OpStr => self ← get_self; _ ← mret (__str__ self); mret tt
  end.

(** The lights that exist at run time: built by the constructor and then
    only touched through the operations. *)
Inductive reachable `{Codec} : Light -> Prop :=
  | reachable_init name a : reachable (__init__ name a)
  | reachable_step o self : reachable self -> reachable (after (run_op o self)).

(** A sequence of operations, one after the other; an operation that
    raises leaves the light as it was at that point. *)
Definition run_ops `{Codec} (os : list Op) (self : Light) : Light :=
  foldl (λ l o, after (run_op o l)) self os.

(** The five capability flags at once. *)
Definition capabilities (self : Light) : list bool :=
  [supports_brightness self; supports_color self; supports_rgbw self;
   supports_tunable_white self; supports_color_temperature self].

(** A feature was configured: one of its two addresses is not [None]. *)
Definition configured (f : Feature) (a : InitArgs) : Prop :=
  is_Some (write_address f a) ∨ is_Some (state_address f a).

(** The cached value of every slot. *)
Definition cached (self : Light) (f : Feature) : option Value :=
  value (slot f self).

(** The destination of the telegram is an address of the slot. *)
Definition matches (t : Telegram) (self : Light) (f : Feature) : bool :=
  has_group_address (slot f self) (destination t).

(** Classification of events. *)
Definition is_bus_write (e : Event) : bool :=
  match e with
  | CallOn _ | CallOff _ | CallSet _ _ => true
  | _ => false
  end.

Definition is_callback (e : Event) : bool :=
  match e with
  | AfterUpdate _ => true
  | _ => false
  end.

Definition process_call (e : Event) : option (Feature * Telegram) :=
  match e with
  | CallProcess f t => Some (f, t)
  | _ => None
  end.

(** The calls of [process] in a trace, in order. *)
Definition process_calls (tr : list Event) : list (Feature * Telegram) :=
  omap process_call tr.

(** How often the device callback fired. *)
Definition callbacks (tr : list Event) : nat :=
  length (filter (λ e, is_callback e = true) tr).

(** What the operations leave alone: the name, the colour temperature
    bounds and, in every slot, the addresses and the flag. *)
Definition same_configuration (self self' : Light) : Prop :=
  name self' = name self
  ∧ min_kelvin self' = min_kelvin self
  ∧ max_kelvin self' = max_kelvin self
  ∧ ∀ f, group_address (slot f self') = group_address (slot f self)
         ∧ group_address_state (slot f self') = group_address_state (slot f self)
         ∧ initialized (slot f self') = initialized (slot f self).

(** The invariant of a slot: the flag reflects the addresses, and a slot
    without addresses has never received a value. *)
Definition slot_ok (rv : RemoteValue) : Prop :=
  initialized rv
  = bool_decide (is_Some (group_address rv))
    || bool_decide (is_Some (group_address_state rv))
  ∧ (initialized rv = false -> value rv = None).

Definition light_ok (self : Light) : Prop := ∀ f, slot_ok (slot f self).

(** A call that does nothing but log one warning about the device. *)
Definition warned (fmt : string) (self : Light) : Run unit :=
  {| outcome := Returned tt;
     after := self;
     trace := [Warning fmt [get_name self]] |}.


(** ** A codec and lights for the examples *)

(** One byte for a switch or a scaled value, two bytes for a colour
    temperature, the bytes themselves for a colour. *)
Definition example_from_knx (f : Feature) (p : Payload) : Value :=
  match f with
  | Switch => VBool (negb (default 0 (head p) =? 0))
  | Brightness | TunableWhite => VInt (default 0 (head p))
  | Color | Rgbw => VSeq p
  | ColorTemperature => VInt (256 * default 0 (p !! 0%nat) + default 0 (p !! 1%nat))
  end.

Definition example_addr_str (rv : RemoteValue) : string :=
  match group_address rv with
  | Some (VStr s) => s
  | _ => "None"
  end.

Definition example_codec : Codec :=
  {| from_knx := example_from_knx; group_addr_str := example_addr_str |}.

(** A dimmer: only the switch and the brightness are wired. *)
Definition dimmer : Light :=
  __init__ "dimmer"
    {| group_address_switch := Some (VStr "1/0/1");
       group_address_switch_state := Some (VStr "1/1/1");
       group_address_brightness := Some (VStr "1/0/2");
       group_address_brightness_state := Some (VStr "1/1/2");
       group_address_color := None;
       group_address_color_state := None;
       group_address_rgbw := None;
       group_address_rgbw_state := None;
       group_address_tunable_white := None;
       group_address_tunable_white_state := None;
       group_address_color_temperature := None;
       group_address_color_temperature_state := None;
       arg_min_kelvin := None;
       arg_max_kelvin := None |}.

(** A four channel strip: the switch and RGBW are wired, plain colour is
    not. *)
Definition strip : Light :=
  __init__ "strip"
    {| group_address_switch := Some (VStr "2/0/1");
       group_address_switch_state := None;
       group_address_brightness := None;
       group_address_brightness_state := None;
       group_address_color := None;
       group_address_color_state := None;
       group_address_rgbw := Some (VStr "2/0/4");
       group_address_rgbw_state := None;
       group_address_tunable_white := None;
       group_address_tunable_white_state := None;
       group_address_color_temperature := None;
       group_address_color_temperature_state := None;
       arg_min_kelvin := None;
       arg_max_kelvin := None |}.

(** A colour lamp: the switch and plain colour are wired, RGBW is not. *)
Definition rgb_lamp : Light :=
  __init__ "rgb"
    {| group_address_switch := Some (VStr "3/0/1");
       group_address_switch_state := None;
       group_address_brightness := None;
       group_address_brightness_state := None;
       group_address_color := Some (VStr "3/0/3");
       group_address_color_state := None;
       group_address_rgbw := None;
       group_address_rgbw_state := None;
       group_address_tunable_white := None;
       group_address_tunable_white_state := None;
       group_address_color_temperature := None;
       group_address_color_temperature_state := None;
       arg_min_kelvin := None;
       arg_max_kelvin := None |}.

Definition telegram_to (ga : string) (p : Payload) : Telegram :=
  {| destination := VStr ga; payload := p |}.

(** ** Vocabulary for further properties *)

(** What one slot looks like once a telegram has been presented to it,
    and whether that presentation notifies the device. *)
Definition deliver `{Codec} (t : Telegram) (self : Light) (f : Feature)
    : RemoteValue :=
  if matches t self f
  then with_value (Some (from_knx f (payload t))) (slot f self)
  else slot f self.

Definition notifies `{Codec} (t : Telegram) (self : Light) (f : Feature)
    : bool :=
  matches t self f
  && bool_decide (cached self f ≠ Some (from_knx f (payload t))).

(** The optional features with the labels that [__str__] gives them, in
    the order in which it prints them. *)
Definition summary_labels : list (Feature * string) :=
  [(Brightness, " brightness="); (Color, " color="); (Rgbw, " rgbw=");
   (TunableWhite, " tunable white=");
   (ColorTemperature, " color temperature=")].

Definition summary_part `{Codec} (self : Light) (fl : Feature * string)
    : string :=
  fl.2 +:+ dquote +:+ group_addr_str (slot fl.1 self) +:+ dquote.

(** The summary written as: the head with name and switch, one part for
    each optional feature whose slot is initialized, the closing. *)
Definition summary `{Codec} (self : Light) : string :=
  "<Light name=" +:+ dquote +:+ name self +:+ dquote
  +:+ " switch=" +:+ dquote +:+ group_addr_str (switch self) +:+ dquote
  +:+ foldr (λ part rest, part +:+ rest) " />"
        (summary_part self
         <$> filter (λ fl, initialized (slot fl.1 self) = true) summary_labels).

(** The configuration keys that [from_config] reads. *)
Definition known_keys : list string :=
  ["group_address_switch"; "group_address_switch_state";
   "group_address_brightness"; "group_address_brightness_state";
   "group_address_color"; "group_address_color_state";
   "group_address_rgbw"; "group_address_rgbw_state";
   "group_address_tunable_white"; "group_address_tunable_white_state";
   "group_address_color_temperature";
   "group_address_color_temperature_state";
   "min_kelvin"; "max_kelvin"].

(** The configuration gives the key a value that is not [None]. *)
Definition config_has (config : Config) (key : string) : Prop :=
  ∃ v, config !! key = Some (Some v).

(** A light wired with the same address for brightness and tunable
    white. *)
Definition crossed : Light :=
  __init__ "crossed"
    {| group_address_switch := Some (VStr "4/0/1");
       group_address_switch_state := None;
       group_address_brightness := Some (VStr "4/0/2");
       group_address_brightness_state := None;
       group_address_color := None;
       group_address_color_state := None;
       group_address_rgbw := None;
       group_address_rgbw_state := None;
       group_address_tunable_white := Some (VStr "4/0/2");
       group_address_tunable_white_state := None;
       group_address_color_temperature := None;
       group_address_color_temperature_state := None;
       arg_min_kelvin := None;
       arg_max_kelvin := None |}.



(** A codec whose RGBW decoder always yields four components, as the
    RGBW frame does; bytes that are missing read as 0. *)
Definition four_channel_from_knx (f : Feature) (p : Payload) : Value :=
  match f with
  | Rgbw =>
      VSeq [default 0 (p !! 0%nat); default 0 (p !! 1%nat);
            default 0 (p !! 2%nat); default 0 (p !! 3%nat)]
  | _ => example_from_knx f p
  end.

Definition four_channel_codec : Codec :=
  {| from_knx := four_channel_from_knx; group_addr_str := example_addr_str |}.

(** * Properties *)

(** ** The builtins on a few inputs *)

Example int_128 : Py.int "128" = Some 128. Proof. reflexivity. Qed.
Example int_neg : Py.int " -0_7 " = Some (-7). Proof. reflexivity. Qed.
Example int_abc : Py.int "abc" = None. Proof. reflexivity. Qed.
Example int_empty : Py.int "" = None. Proof. reflexivity. Qed.
Example int_us : Py.int "1__0" = None. Proof. reflexivity. Qed.
Example int_us2 : Py.int "1_" = None. Proof. reflexivity. Qed.
Example int_us3 : Py.int "_1" = None. Proof. reflexivity. Qed.
Example int_sp : Py.int "1 2" = None. Proof. reflexivity. Qed.
Example slice_ex : Py.slice_from 11 "brightness:128" = "128". Proof. reflexivity. Qed.

(** ** Slots and the monad *)

Lemma slot_set_slot f g rv self :
  slot g (set_slot f rv self) = if decide (f = g) then rv else slot g self.
Proof. destruct g; reflexivity. Qed.

Lemma slot_set_slot_eq f rv self : slot f (set_slot f rv self) = rv.
Proof. rewrite slot_set_slot. by rewrite decide_True. Qed.

Lemma slot_set_slot_ne f g rv self :
  f ≠ g -> slot g (set_slot f rv self) = slot g self.
Proof. intros Hne. rewrite slot_set_slot. by rewrite decide_False. Qed.

Lemma set_slot_id f self : set_slot f (slot f self) self = self.
Proof. destruct self, f; reflexivity. Qed.

Lemma bind_outcome {A B} (m : M A) (k : A -> M B) self :
  outcome ((m ≫= k) self)
  = match outcome (m self) with
    | Returned a => outcome (k a (after (m self)))
    | Raised e => Raised e
    end.
Proof. unfold mbind, M_bind. by destruct (outcome (m self)). Qed.

Lemma bind_after {A B} (m : M A) (k : A -> M B) self :
  after ((m ≫= k) self)
  = match outcome (m self) with
    | Returned a => after (k a (after (m self)))
    | Raised e => after (m self)
    end.
Proof. unfold mbind, M_bind. by destruct (outcome (m self)). Qed.

Lemma bind_trace {A B} (m : M A) (k : A -> M B) self :
  trace ((m ≫= k) self)
  = match outcome (m self) with
    | Returned a => trace (m self) ++ trace (k a (after (m self)))
    | Raised e => trace (m self)
    end.
Proof.
  unfold mbind, M_bind. destruct (outcome (m self)); simpl; [done|done].
Qed.

(** [process] in closed form: it returns, replaces the slot behind the
    reference and logs the call, followed by at most one notification. *)
Lemma process_run `{Codec} f t self :
  process f t self
  = {| outcome := Returned tt;
       after := set_slot f (process_slot (from_knx f) t (slot f self)).1 self;
       trace :=
         CallProcess f t
         :: (if (process_slot (from_knx f) t (slot f self)).2
             then [AfterUpdate (name self)] else []) |}.
Proof.
  unfold process, mbind, M_bind. simpl.
  destruct (process_slot (from_knx f) t (slot f self)) as [rv [|]]; reflexivity.
Qed.

Lemma process_slot_no_match decode t rv :
  has_group_address rv (destination t) = false ->
  process_slot decode t rv = (rv, false).
Proof. intros Hm. unfold process_slot. by rewrite Hm. Qed.

Lemma process_slot_match decode t rv :
  has_group_address rv (destination t) = true ->
  process_slot decode t rv
  = (with_value (Some (decode (payload t))) rv,
     bool_decide (value rv ≠ Some (decode (payload t)))).
Proof. intros Hm. unfold process_slot. by rewrite Hm. Qed.

Lemma process_slot_configuration decode t rv :
  let rv' := (process_slot decode t rv).1 in
  group_address rv' = group_address rv
  ∧ group_address_state rv' = group_address_state rv
  ∧ initialized rv' = initialized rv.
Proof. unfold process_slot. by destruct (has_group_address _ _). Qed.

(** ** The operations keep the configuration *)

Lemma same_configuration_refl self : same_configuration self self.
Proof. by repeat split. Qed.

Lemma same_configuration_trans a b c :
  same_configuration a b -> same_configuration b c -> same_configuration a c.
Proof.
  intros (Hn & Hmin & Hmax & Hs) (Hn' & Hmin' & Hmax' & Hs').
  repeat split; try congruence;
    destruct (Hs f) as (? & ? & ?), (Hs' f) as (? & ? & ?); congruence.
Qed.

Lemma process_same_configuration `{Codec} f t self :
  same_configuration self (after (process f t self)).
Proof.
  rewrite process_run. simpl.
  pose proof (process_slot_configuration (from_knx f) t (slot f self))
    as (Ha & Hb & Hc).
  split; [done|]. split; [done|]. split; [done|].
  intros g. rewrite slot_set_slot. by destruct (decide (f = g)) as [<-|].
Qed.

Lemma for_each_process_same_configuration `{Codec} fs t self :
  same_configuration self (after (for_each fs (λ f, process f t) self)).
Proof.
  revert self. induction fs as [|f fs IH]; intros self.
  - apply same_configuration_refl.
  - simpl. rewrite bind_after, process_run. simpl.
    eapply same_configuration_trans; [|apply IH].
    pose proof (process_same_configuration f t self) as Hp.
    by rewrite process_run in Hp.
Qed.

(** The light after a setter or [do] is the light before. *)
Lemma set_brightness_after v self : after (set_brightness v self) = self.
Proof. unfold set_brightness, mbind, M_bind. simpl. by destruct (supports_brightness self). Qed.

Lemma set_tunable_white_after v self : after (set_tunable_white v self) = self.
Proof. unfold set_tunable_white, mbind, M_bind. simpl. by destruct (supports_tunable_white self). Qed.

Lemma set_color_temperature_after v self :
  after (set_color_temperature v self) = self.
Proof.
  unfold set_color_temperature, mbind, M_bind. simpl.
  by destruct (supports_color_temperature self).
Qed.

Lemma set_color_after c w self : after (set_color c w self) = self.
Proof.
  unfold set_color, mbind, M_bind. simpl.
  destruct w; [by destruct (supports_rgbw self)|by destruct (supports_color self)].
Qed.

Lemma int_then_after (s : string) (k : Z -> M unit) self :
  (∀ n, after (k n self) = self) -> after ((int s ≫= k) self) = self.
Proof.
  intros Hk. rewrite bind_after. unfold int.
  destruct (Py.int s); simpl; [apply Hk|done].
Qed.

Lemma do_after action self : after (do action self) = self.
Proof.
  unfold do.
  repeat case_match; try reflexivity;
    apply int_then_after; intros n;
    auto using set_brightness_after, set_tunable_white_after,
      set_color_temperature_after.
Qed.

Lemma run_op_same_configuration `{Codec} o self :
  same_configuration self (after (run_op o self)).
Proof.
  destruct o; unfold run_op;
    rewrite ?set_brightness_after, ?set_color_after, ?set_tunable_white_after,
      ?set_color_temperature_after, ?do_after;
    try apply same_configuration_refl.
  apply for_each_process_same_configuration.
Qed.

Lemma run_ops_same_configuration `{Codec} os self :
  same_configuration self (run_ops os self).
Proof.
  revert self. induction os as [|o os IH]; intros self.
  - apply same_configuration_refl.
  - eapply same_configuration_trans; [apply (run_op_same_configuration o)|apply IH].
Qed.

Lemma same_configuration_capabilities self self' :
  same_configuration self self' -> capabilities self' = capabilities self.
Proof.
  intros (_ & _ & _ & Hs). unfold capabilities, supports_brightness,
    supports_color, supports_rgbw, supports_tunable_white,
    supports_color_temperature.
  destruct (Hs Brightness) as (_ & _ & Hb), (Hs Color) as (_ & _ & Hc),
    (Hs Rgbw) as (_ & _ & Hr), (Hs TunableWhite) as (_ & _ & Ht),
    (Hs ColorTemperature) as (_ & _ & Hk).
  simpl in Hb, Hc, Hr, Ht, Hk. by rewrite Hb, Hc, Hr, Ht, Hk.
Qed.

Lemma initialized_init ga gas :
  initialized (RemoteValue_init ga gas) = true ↔ is_Some ga ∨ is_Some gas.
Proof. simpl. by rewrite orb_true_iff, !bool_decide_eq_true. Qed.

(** ** Capability flags *)

(** C1: each of the five flags [supports_F] of a freshly constructed
    light is true exactly when the constructor was given a write address
    or a state address for [F] that is not [None]; and no operation
    (the setters, [do], [process_group_write], [__str__]), alone or in
    any sequence, changes any of the five flags. *)
Theorem supports_reflects_addresses_and_stays `{Codec} :
  (∀ name a,
     (supports_brightness (__init__ name a) = true ↔ configured Brightness a)
     ∧ (supports_color (__init__ name a) = true ↔ configured Color a)
     ∧ (supports_rgbw (__init__ name a) = true ↔ configured Rgbw a)
     ∧ (supports_tunable_white (__init__ name a) = true
        ↔ configured TunableWhite a)
     ∧ (supports_color_temperature (__init__ name a) = true
        ↔ configured ColorTemperature a))
  ∧ (∀ o self, capabilities (after (run_op o self)) = capabilities self)
  ∧ (∀ os self, capabilities (run_ops os self) = capabilities self).
Proof.
  split; [|split].
  - intros name a. repeat split; try apply initialized_init;
      intros Hc; by apply initialized_init.
  - intros o self. apply same_configuration_capabilities,
      run_op_same_configuration.
  - intros os self. apply same_configuration_capabilities,
      run_ops_same_configuration.
Qed.

Lemma supports_reflects_addresses_and_stays_witness :
  supports_brightness dimmer = true
  ∧ supports_color dimmer = false
  ∧ capabilities
      (@run_ops example_codec
         [OpProcessGroupWrite (telegram_to "1/1/2" [128]);
          OpSetColor [255; 0; 0] None; OpDo "brightness:abc"; OpStr] dimmer)
    = capabilities dimmer.
Proof.
  destruct (@supports_reflects_addresses_and_stays example_codec)
    as (Hinit & _ & Hops).
  split; [reflexivity|]. split; [reflexivity|]. apply Hops.
Defined.

(** ** Colour temperature bounds *)

(** C9, as stated, fails: a light constructed directly without
    [min_kelvin] and [max_kelvin] stores [None] for both, not 2700 and
    6000. *)
Lemma kelvin_defaults_not_in_constructor :
  min_kelvin (__init__ "lamp" no_args) = None
  ∧ max_kelvin (__init__ "lamp" no_args) = None
  ∧ min_kelvin (__init__ "lamp" no_args) ≠ Some (VInt 2700)
  ∧ max_kelvin (__init__ "lamp" no_args) ≠ Some (VInt 6000).
Proof. by repeat split. Qed.

(** C9, amended: [from_config] on a configuration without the keys
    [min_kelvin] and [max_kelvin] stores 2700 and 6000; the constructor
    itself stores the arguments it is given ([None] when they are left
    out); and no operation changes the stored bounds. *)
Theorem kelvin_defaults_from_config `{Codec} (name : string) (config : Config) :
  config !! "min_kelvin" = None ->
  config !! "max_kelvin" = None ->
  (min_kelvin (from_config name config) = Some (VInt 2700)
   ∧ max_kelvin (from_config name config) = Some (VInt 6000))
  ∧ (∀ a, min_kelvin (__init__ name a) = arg_min_kelvin a
          ∧ max_kelvin (__init__ name a) = arg_max_kelvin a)
  ∧ (∀ o self, min_kelvin (after (run_op o self)) = min_kelvin self
               ∧ max_kelvin (after (run_op o self)) = max_kelvin self).
Proof.
  intros Hmin Hmax. split; [|split].
  - unfold from_config, config_get_default. simpl. by rewrite Hmin, Hmax.
  - done.
  - intros o self.
    by destruct (run_op_same_configuration o self) as (_ & ? & ? & _).
Qed.

Lemma kelvin_defaults_from_config_witness :
  (min_kelvin
     (from_config "lamp" (<["group_address_switch" := Some (VStr "1/0/1")]> ∅))
   = Some (VInt 2700)
   ∧ max_kelvin
       (from_config "lamp" (<["group_address_switch" := Some (VStr "1/0/1")]> ∅))
     = Some (VInt 6000)).
Proof.
  apply (@kelvin_defaults_from_config example_codec "lamp"
           (<["group_address_switch" := Some (VStr "1/0/1")]> ∅));
    reflexivity.
Defined.

(** ** Setting a colour with a white value *)

(** C2: for a colour of three components and a white value [W],
    [set_color(rgb, white=W)] on a light that supports RGBW calls [set]
    of the rgbw slot, once, with the four components [rgb + [W]], and
    does nothing else; on a light that does not support RGBW it returns
    after one warning about the device, with no call of a write primitive
    at all, whether or not plain colour is supported. *)
Theorem set_color_with_white (rgb : list Z) (W : Z) (self : Light) :
  length rgb = 3%nat ->
  (supports_rgbw self = true ->
     set_color rgb (Some W) self
     = {| outcome := Returned tt;
          after := self;
          trace := [CallSet Rgbw (VSeq (rgb ++ [W]))] |}
     ∧ length (rgb ++ [W]) = 4%nat)
  ∧ (supports_rgbw self = false ->
     set_color rgb (Some W) self
     = warned "RGBW not supported for device %s" self
     ∧ Forall (λ e, is_bus_write e = false)
         (trace (set_color rgb (Some W) self))).
Proof.
  intros Hlen. unfold set_color, mbind, M_bind. simpl. split; intros ->.
  - split; [reflexivity|]. rewrite length_app, Hlen. reflexivity.
  - split; [reflexivity|]. simpl. by repeat constructor.
Qed.

Lemma set_color_with_white_witness :
  set_color [255; 0; 0] (Some 10) strip
  = {| outcome := Returned tt;
       after := strip;
       trace := [CallSet Rgbw (VSeq [255; 0; 0; 10])] |}
  ∧ supports_color rgb_lamp = true
  ∧ set_color [255; 0; 0] (Some 10) rgb_lamp
    = warned "RGBW not supported for device %s" rgb_lamp.
Proof.
  split; [|split].
  - apply (set_color_with_white [255; 0; 0] 10 strip); reflexivity.
  - reflexivity.
  - apply (set_color_with_white [255; 0; 0] 10 rgb_lamp); reflexivity.
Defined.

(** ** Inbound routing: who is asked *)

Lemma process_calls_app tr tr' :
  process_calls (tr ++ tr') = process_calls tr ++ process_calls tr'.
Proof. apply omap_app. Qed.

Lemma for_each_process_calls `{Codec} fs t self :
  outcome (for_each fs (λ f, process f t) self) = Returned tt
  ∧ process_calls (trace (for_each fs (λ f, process f t) self))
    = map (λ f, (f, t)) fs.
Proof.
  revert self. induction fs as [|f fs IH]; intros self; [done|].
  simpl. rewrite bind_outcome, bind_trace, process_run. simpl.
  destruct (IH (set_slot f (process_slot (from_knx f) t (slot f self)).1 self))
    as [Ho Hc].
  split; [done|].
  change (CallProcess f t :: ?a ++ ?b) with ([CallProcess f t] ++ (a ++ b)).
  rewrite !process_calls_app, Hc.
  by destruct ((process_slot (from_knx f) t (slot f self)).2).
Qed.

(** C4: [process_group_write(t)] calls [process(t)] on each of the six
    slots exactly once, in the order switch, brightness, color, rgbw,
    tunable_white, color_temperature, whatever the state of the slots,
    and returns. *)
Theorem process_group_write_asks_every_slot `{Codec} (t : Telegram)
    (self : Light) :
  process_calls (trace (process_group_write t self))
  = [(Switch, t); (Brightness, t); (Color, t); (Rgbw, t); (TunableWhite, t);
     (ColorTemperature, t)]
  ∧ outcome (process_group_write t self) = Returned tt.
Proof.
  destruct (for_each_process_calls _iter_remote_values t self) as [Ho Hc].
  split; [exact Hc|exact Ho].
Qed.

(** ** The action strings *)

Lemma prefix_app (p s : string) : String.prefix p (p +:+ s) = true.
Proof.
  induction p as [|c p IH]; simpl; [by destruct s|].
  by destruct (ascii_dec c c).
Qed.

Lemma slice_from_app (p s : string) :
  Py.slice_from (String.length p) (p +:+ s) = s.
Proof. induction p as [|c p IH]; simpl; [by destruct s|done]. Qed.


Lemma int_run s n self (k : Z -> M unit) :
  Py.int s = Some n -> (int s ≫= k) self = k n self.
Proof.
  intros Hs. unfold int, mbind, M_bind. rewrite Hs. simpl.
  by destruct (k n self).
Qed.


Lemma do_brightness s self :
  do ("brightness:" +:+ s) self
  = (int s ≫= λ n, set_brightness (VInt n)) self.
Proof.
  unfold do. change (String.eqb ("brightness:" +:+ s) "on") with false.
  change (String.eqb ("brightness:" +:+ s) "off") with false.
  unfold Py.startswith. rewrite prefix_app.
  by change (Py.slice_from 11 ("brightness:" +:+ s)) with s.
Qed.

Lemma do_tunable_white s self :
  do ("tunable_white:" +:+ s) self
  = (int s ≫= λ n, set_tunable_white (VInt n)) self.
Proof.
  unfold do. change (String.eqb ("tunable_white:" +:+ s) "on") with false.
  change (String.eqb ("tunable_white:" +:+ s) "off") with false.
  change (Py.startswith ("tunable_white:" +:+ s) "brightness:") with false.
  unfold Py.startswith. rewrite prefix_app.
  by change (Py.slice_from 14 ("tunable_white:" +:+ s)) with s.
Qed.

Lemma do_color_temperature s self :
  do ("color_temperature:" +:+ s) self
  = (int s ≫= λ n, set_color_temperature (VInt n)) self.
Proof.
  unfold do. change (String.eqb ("color_temperature:" +:+ s) "on") with false.
  change (String.eqb ("color_temperature:" +:+ s) "off") with false.
  change (Py.startswith ("color_temperature:" +:+ s) "brightness:") with false.
  change (Py.startswith ("color_temperature:" +:+ s) "tunable_white:")
    with false.
  unfold Py.startswith. rewrite prefix_app.
  by change (Py.slice_from 18 ("color_temperature:" +:+ s)) with s.
Qed.

(** C6: [do("on")] is [set_on()] and [do("off")] is [set_off()]; and
    when [int] reads the text [s] as the integer [n],
    [do("brightness:" + s)], [do("tunable_white:" + s)] and
    [do("color_temperature:" + s)] are [set_brightness(n)],
    [set_tunable_white(n)] and [set_color_temperature(n)]: the same
    outcome, the same light afterwards and the same events. *)
Theorem do_is_the_typed_setter :
  (do "on" = set_on ∧ do "off" = set_off)
  ∧ ∀ (s : string) (n : Z) (self : Light),
      Py.int s = Some n ->
      do ("brightness:" +:+ s) self = set_brightness (VInt n) self
      ∧ do ("tunable_white:" +:+ s) self = set_tunable_white (VInt n) self
      ∧ do ("color_temperature:" +:+ s) self
        = set_color_temperature (VInt n) self.
Proof.
  split; [by split|]. intros s n self Hs.
  rewrite do_brightness, do_tunable_white, do_color_temperature.
  by rewrite !(int_run s n self _ Hs).
Qed.

Lemma do_is_the_typed_setter_witness :
  Py.int "128" = Some 128
  ∧ do "brightness:128" dimmer = set_brightness (VInt 128) dimmer
  ∧ do "tunable_white:128" dimmer = set_tunable_white (VInt 128) dimmer
  ∧ do "color_temperature:128" dimmer
    = set_color_temperature (VInt 128) dimmer.
Proof.
  split; [reflexivity|].
  apply (proj2 do_is_the_typed_setter "128" 128 dimmer). reflexivity.
Defined.

(** C7: an action that is neither ["on"] nor ["off"] and starts with
    none of the three prefixes makes [do] return normally after a single
    warning that carries the action and the name of the device; no slot
    primitive is called and the light is unchanged. *)
Theorem do_unknown_action (action : string) (self : Light) :
  action ≠ "on" ->
  action ≠ "off" ->
  Py.startswith action "brightness:" = false ->
  Py.startswith action "tunable_white:" = false ->
  Py.startswith action "color_temperature:" = false ->
  do action self
  = {| outcome := Returned tt;
       after := self;
       trace :=
         [Warning "Could not understand action %s for device %s"
            [action; get_name self]] |}.
Proof.
  intros Hon Hoff Hb Ht Hc. unfold do.
  apply String.eqb_neq in Hon, Hoff. by rewrite Hon, Hoff, Hb, Ht, Hc.
Qed.

Lemma do_unknown_action_witness :
  do "bogus" dimmer
  = {| outcome := Returned tt;
       after := dimmer;
       trace :=
         [Warning "Could not understand action %s for device %s"
            ["bogus"; "dimmer"]] |}.
Proof. apply (do_unknown_action "bogus" dimmer); done. Defined.

(** ** The capability gate *)

Lemma init_ok name a : light_ok (__init__ name a).
Proof. intros f. destruct f; by split. Qed.

Lemma process_slot_ok decode t rv :
  slot_ok rv -> slot_ok (process_slot decode t rv).1.
Proof.
  intros [Hflag Hnone]. unfold process_slot.
  destruct (has_group_address rv (destination t)) eqn:Hm; [|by split].
  split; [exact Hflag|]. simpl. intros Hi. exfalso.
  unfold has_group_address in Hm. rewrite Hflag in Hi.
  apply orb_false_iff in Hi as [Hw Hs].
  apply bool_decide_eq_false in Hw, Hs.
  apply orb_true_iff in Hm as [Hm|Hm]; apply bool_decide_eq_true in Hm;
    [apply Hw|apply Hs]; by rewrite Hm.
Qed.

Lemma for_each_process_ok `{Codec} fs t self :
  light_ok self -> light_ok (after (for_each fs (λ f, process f t) self)).
Proof.
  revert self. induction fs as [|f fs IH]; intros self Hok; [done|].
  simpl. rewrite bind_after, process_run. simpl. apply IH.
  intros g. rewrite slot_set_slot. destruct (decide (f = g)) as [<-|]; [|done].
  by apply process_slot_ok.
Qed.

Lemma run_op_ok `{Codec} o self :
  light_ok self -> light_ok (after (run_op o self)).
Proof.
  intros Hok. destruct o; unfold run_op;
    rewrite ?set_brightness_after, ?set_color_after, ?set_tunable_white_after,
      ?set_color_temperature_after, ?do_after;
    try exact Hok.
  by apply for_each_process_ok.
Qed.

Lemma reachable_ok `{Codec} self : reachable self -> light_ok self.
Proof.
  induction 1 as [name a|o self _ IH]; [apply init_ok|by apply run_op_ok].
Qed.

(** C3, as stated, fails for the colour accessors: on a light wired for
    RGBW only, [supports_color] is false, yet [set_color] with a white
    value calls [set] on the rgbw slot and logs nothing, and once an RGBW
    telegram has arrived [current_color] returns its colour and white
    instead of an absent value. *)
Lemma color_gate_is_not_supports_color :
  supports_color strip = false
  ∧ set_color [255; 0; 0] (Some 10) strip
    = {| outcome := Returned tt;
         after := strip;
         trace := [CallSet Rgbw (VSeq [255; 0; 0; 10])] |}
  ∧ let lit :=
      after (@process_group_write example_codec
               (telegram_to "2/0/4" [1; 2; 3; 4]) strip) in
    supports_color lit = false
    ∧ current_color lit = Returned (Some (VSeq [1; 2; 3]), Some (VInt 4)).
Proof. by repeat split. Qed.

(** C3, amended: the flag that gates [set_color] is [supports_rgbw] when
    a white value is given and [supports_color] otherwise, and
    [current_color] is absent when neither of the two is supported.
    With that reading, on every light that the constructor and the
    operations can produce: a setter whose gating flag is false returns
    normally after exactly one warning that names the device, calls no
    slot primitive and leaves the light, cached values included, as it
    was; a read accessor of an unsupported feature returns [None]
    ([current_color] the pair of two [None]) and has no effect. *)
Theorem unsupported_feature_gate `{Codec} (self : Light) :
  reachable self ->
  (∀ v, supports_brightness self = false ->
        set_brightness v self
        = warned "Dimming not supported for device %s" self)
  ∧ (∀ c, supports_color self = false ->
          set_color c None self
          = warned "Colors not supported for device %s" self)
  ∧ (∀ c w, supports_rgbw self = false ->
            set_color c (Some w) self
            = warned "RGBW not supported for device %s" self)
  ∧ (∀ v, supports_tunable_white self = false ->
          set_tunable_white v self
          = warned "Tunable white not supported for device %s" self)
  ∧ (∀ v, supports_color_temperature self = false ->
          set_color_temperature v self
          = warned "Absolute Color Temperature not supported for device %s"
              self)
  ∧ (supports_brightness self = false -> current_brightness self = None)
  ∧ (supports_color self = false -> supports_rgbw self = false ->
     current_color self = Returned (None, None))
  ∧ (supports_tunable_white self = false -> current_tunable_white self = None)
  ∧ (supports_color_temperature self = false ->
     current_color_temperature self = None).
Proof.
  intros Hr. pose proof (reachable_ok self Hr) as Hok.
  repeat split.
  - intros v Hs. unfold set_brightness, mbind, M_bind. simpl. by rewrite Hs.
  - intros c Hs. unfold set_color, mbind, M_bind. simpl. by rewrite Hs.
  - intros c w Hs. unfold set_color, mbind, M_bind. simpl. by rewrite Hs.
  - intros v Hs. unfold set_tunable_white, mbind, M_bind. simpl. by rewrite Hs.
  - intros v Hs. unfold set_color_temperature, mbind, M_bind. simpl.
    by rewrite Hs.
  - intros Hs. by apply (Hok Brightness).
  - intros Hc Hw. unfold current_color. rewrite Hw.
    pose proof (proj2 (Hok Color) Hc) as Hv. simpl in Hv. by rewrite Hv.
  - intros Hs. by apply (Hok TunableWhite).
  - intros Hs. by apply (Hok ColorTemperature).
Qed.

Lemma unsupported_feature_gate_witness :
  set_color [255; 0; 0] None dimmer
  = warned "Colors not supported for device %s" dimmer
  ∧ current_color dimmer = Returned (None, None)
  ∧ current_tunable_white dimmer = None.
Proof.
  pose proof (@unsupported_feature_gate example_codec dimmer
                (@reachable_init example_codec _ _))
    as (_ & Hc & _ & _ & _ & _ & Hcur & Htw & _).
  split; [|split].
  - apply Hc. reflexivity.
  - apply Hcur; reflexivity.
  - apply Htw. reflexivity.
Defined.

(** ** Inbound routing: what changes *)

Lemma callbacks_app tr tr' : callbacks (tr ++ tr') = (callbacks tr + callbacks tr')%nat.
Proof. unfold callbacks. by rewrite filter_app, length_app. Qed.

Lemma process_no_match `{Codec} f t self :
  matches t self f = false ->
  process f t self
  = {| outcome := Returned tt; after := self; trace := [CallProcess f t] |}.
Proof.
  intros Hm. rewrite process_run, process_slot_no_match by exact Hm.
  simpl. by rewrite set_slot_id.
Qed.

Lemma process_match `{Codec} f t self :
  matches t self f = true ->
  process f t self
  = {| outcome := Returned tt;
       after :=
         set_slot f (with_value (Some (from_knx f (payload t))) (slot f self))
           self;
       trace :=
         CallProcess f t
         :: (if bool_decide (cached self f ≠ Some (from_knx f (payload t)))
             then [AfterUpdate (name self)] else []) |}.
Proof. intros Hm. by rewrite process_run, process_slot_match by exact Hm. Qed.

Lemma for_each_no_match `{Codec} fs t self :
  (∀ f, f ∈ fs -> matches t self f = false) ->
  after (for_each fs (λ f, process f t) self) = self
  ∧ callbacks (trace (for_each fs (λ f, process f t) self)) = 0%nat.
Proof.
  induction fs as [|f fs IH]; intros Hno; [done|].
  simpl. rewrite bind_after, bind_trace, process_no_match
    by (apply Hno; left).
  simpl. destruct IH as [Ha Hc]; [intros g Hg; apply Hno; by right|].
  split; [exact Ha|].
  change (CallProcess f t :: ?tr) with ([CallProcess f t] ++ tr).
  by rewrite callbacks_app, Hc.
Qed.

Lemma matches_set_slot_ne t f g rv self :
  f ≠ g -> matches t (set_slot f rv self) g = matches t self g.
Proof. intros Hne. unfold matches. by rewrite slot_set_slot_ne. Qed.

Lemma for_each_one_match `{Codec} fs f t self :
  NoDup fs ->
  matches t self f = true ->
  (∀ g, g ∈ fs -> g ≠ f -> matches t self g = false) ->
  let v := from_knx f (payload t) in
  after (for_each fs (λ g, process g t) self)
  = (if decide (f ∈ fs)
     then set_slot f (with_value (Some v) (slot f self)) self else self)
  ∧ callbacks (trace (for_each fs (λ g, process g t) self))
    = (if decide (f ∈ fs)
       then (if decide (cached self f = Some v) then 0 else 1)
       else 0)%nat.
Proof.
  intros Hnd Hm Hno v.
  induction fs as [|g fs IH]; [done|].
  apply NoDup_cons in Hnd as [Hg Hnd].
  destruct (decide (g = f)) as [->|Hgf].
  - (* the matching slot is asked now; nobody after it matches *)
    rewrite !decide_True by left.
    simpl. rewrite bind_after, bind_trace, process_match by exact Hm. simpl.
    destruct (for_each_no_match fs t
                (set_slot f (with_value (Some v) (slot f self)) self))
      as [Ha Hc].
    { intros g Hin. rewrite matches_set_slot_ne by (intros ->; done).
      apply Hno; [by right|]. intros ->. done. }
    split; [exact Ha|].
    change (CallProcess f t :: ?a ++ ?b) with ([CallProcess f t] ++ (a ++ b)).
    rewrite !callbacks_app. fold v. rewrite Hc.
    destruct (decide (cached self f = Some v)) as [He|He].
    + by rewrite bool_decide_eq_false_2 by (intros Hn; by apply Hn).
    + by rewrite bool_decide_eq_true_2 by exact He.
  - (* a slot that does not match is a no-op *)
    simpl. rewrite bind_after, bind_trace, process_no_match
      by (apply Hno; [left|exact Hgf]).
    simpl. destruct IH as [Ha Hc]; [exact Hnd|intros h Hh; apply Hno; by right|].
    assert (f ∈ fs ↔ f ∈ g :: fs) as Hiff.
    { rewrite elem_of_cons. split; [by right|]. by intros [->|?]. }
    split.
    + rewrite Ha. by apply decide_ext.
    + change (CallProcess g t :: ?tr) with ([CallProcess g t] ++ tr).
      rewrite callbacks_app, Hc. by apply decide_ext.
Qed.

Lemma NoDup_iter_remote_values : NoDup _iter_remote_values.
Proof. compute_done. Qed.

Lemma elem_of_iter_remote_values f : f ∈ _iter_remote_values.
Proof. destruct f; compute_done. Qed.

(** C5: if the destination of a telegram is an address of none of the
    six slots, [process_group_write] leaves the light as it was (every
    cached value and every capability flag) and the device callback is
    not invoked.  If it is an address of exactly one slot, the cached
    value of that slot becomes the decoded payload, the cached value of
    every other slot and all capability flags stay, and the callback is
    invoked once when the decoded value differs from the prior cached
    value and not at all when it is the same.  The behaviour of a slot
    on [process] is the one described by the specification. *)
Theorem process_group_write_frame `{Codec} (t : Telegram) (self : Light) :
  ((∀ f, matches t self f = false) ->
   after (process_group_write t self) = self
   ∧ callbacks (trace (process_group_write t self)) = 0%nat)
  ∧ (∀ f, matches t self f = true ->
          (∀ g, g ≠ f -> matches t self g = false) ->
          let r := process_group_write t self in
          let v := from_knx f (payload t) in
          cached (after r) f = Some v
          ∧ (∀ g, g ≠ f -> cached (after r) g = cached self g)
          ∧ capabilities (after r) = capabilities self
          ∧ callbacks (trace r)
            = (if decide (cached self f = Some v) then 0 else 1)%nat).
Proof.
  split.
  - intros Hno. apply for_each_no_match. intros f _. apply Hno.
  - intros f Hm Hno r v.
    destruct (for_each_one_match _iter_remote_values f t self
                NoDup_iter_remote_values Hm)
      as [Ha Hc]; [intros g _; apply Hno|].
    rewrite decide_True in Ha by apply elem_of_iter_remote_values.
    rewrite decide_True in Hc by apply elem_of_iter_remote_values.
    fold (process_group_write t self) in Ha, Hc. fold r in Ha, Hc.
    fold v in Ha, Hc.
    repeat split.
    + rewrite Ha. unfold cached. by rewrite slot_set_slot_eq.
    + intros g Hg. rewrite Ha. unfold cached.
      by rewrite slot_set_slot_ne by done.
    + apply same_configuration_capabilities.
      apply (run_op_same_configuration (OpProcessGroupWrite t)).
    + exact Hc.
Qed.

Lemma process_group_write_frame_witness :
  let t := telegram_to "1/1/2" [128] in
  let r := @process_group_write example_codec t dimmer in
  current_brightness (after r) = Some (VInt 128)
  ∧ callbacks (trace r) = 1%nat
  ∧ callbacks (trace (@process_group_write example_codec t (after r))) = 0%nat
  ∧ after (@process_group_write example_codec (telegram_to "9/9/9" [1]) dimmer)
    = dimmer.
Proof.
  intros t r.
  destruct (@process_group_write_frame example_codec t dimmer) as [_ Hone].
  destruct (Hone Brightness) as (Hv & _ & _ & Hc);
    [reflexivity|by intros []|].
  destruct (@process_group_write_frame example_codec t (after r)) as [_ Hagain].
  destruct (Hagain Brightness) as (_ & _ & _ & Hc');
    [reflexivity|by intros []|].
  destruct (@process_group_write_frame example_codec
              (telegram_to "9/9/9" [1]) dimmer) as [Hnone _].
  destruct Hnone as [Ha _]; [by intros []|].
  split; [exact Hv|]. split; [exact Hc|]. split; [exact Hc'|exact Ha].
Defined.

(** ** Which calls raise *)




(** ** Reading the colour *)

(** C10: on a light that supports RGBW, [current_color] is computed from
    the rgbw slot alone: with a cached value of four components
    (or more) it returns the first three and the fourth, without a
    cached value it returns the pair of two [None]; whatever the plain
    colour slot holds makes no difference.  On a light that does not
    support RGBW it returns the cached plain colour and [None]. *)
Theorem current_color_prefers_rgbw (self : Light) :
  (supports_rgbw self = true ->
     (∀ r g b w rest,
        value (rgbw self) = Some (VSeq (r :: g :: b :: w :: rest)) ->
        current_color self = Returned (Some (VSeq [r; g; b]), Some (VInt w)))
     ∧ (value (rgbw self) = None -> current_color self = Returned (None, None))
     ∧ (∀ c, current_color (set_slot Color c self) = current_color self))
  ∧ (supports_rgbw self = false ->
     current_color self = Returned (value (color self), None)).
Proof.
  unfold current_color. split; intros Hs.
  - rewrite Hs. split; [|split].
    + intros r g b w rest Hv. by rewrite Hv.
    + intros Hv. by rewrite Hv.
    + intros c. unfold supports_rgbw in *. simpl.
      change (if decide (Color = Rgbw) then c else rgbw self) with (rgbw self).
      by rewrite Hs.
  - by rewrite Hs.
Qed.

Lemma current_color_prefers_rgbw_witness :
  let lit :=
    after (@process_group_write example_codec
             (telegram_to "2/0/4" [1; 2; 3; 4]) strip) in
  current_color lit = Returned (Some (VSeq [1; 2; 3]), Some (VInt 4))
  ∧ current_color strip = Returned (None, None)
  ∧ current_color rgb_lamp = Returned (value (color rgb_lamp), None).
Proof.
  intros lit. split; [|split].
  - apply (proj1 (proj1 (current_color_prefers_rgbw lit) eq_refl) 1 2 3 4 []).
    reflexivity.
  - apply (proj1 (proj2 (proj1 (current_color_prefers_rgbw strip) eq_refl))).
    reflexivity.
  - apply (proj2 (current_color_prefers_rgbw rgb_lamp)). reflexivity.
Defined.

(** * Further properties *)

(** ** The summary *)

(** X1: [__str__] prints the name, the switch and then exactly the
    optional features whose slot is initialized, each once with its own
    label and address summary, in the order brightness, color, rgbw,
    tunable white, color temperature; an unsupported feature leaves no
    text at all. *)
Theorem str_lists_supported_features `{Codec} (self : Light) :
  __str__ self = summary self.
Proof.
  unfold __str__, summary, supports_brightness, supports_color, supports_rgbw,
    supports_tunable_white, supports_color_temperature.
  destruct self as [n sw [? ? ? ib] [? ? ? ic] [? ? ? ir] [? ? ? it] [? ? ? ik]
                      mn mx].
  destruct ib, ic, ir, it, ik; reflexivity.
Qed.

(** ** Construction from a configuration *)

Lemma config_get_is_Some (config : Config) key :
  is_Some (config_get config key) ↔ config_has config key.
Proof.
  unfold config_get, config_has. destruct (config !! key) as [[v|]|].
  - split; [by exists v|by intros _; exists v].
  - split; [by intros [? ?]|by intros [? ?]].
  - split; [by intros [? ?]|by intros [? ?]].
Qed.

Lemma initialized_config (config : Config) k1 k2 :
  initialized (RemoteValue_init (config_get config k1) (config_get config k2))
  = true
  ↔ config_has config k1 ∨ config_has config k2.
Proof. by rewrite initialized_init, !config_get_is_Some. Qed.

(** X2: a light built by [from_config] supports a feature exactly when
    the configuration gives a value other than [None] under that
    feature's own address key or its own state key. *)
Theorem from_config_capabilities (name : string) (config : Config) :
  (supports_brightness (from_config name config) = true
   ↔ config_has config "group_address_brightness"
     ∨ config_has config "group_address_brightness_state")
  ∧ (supports_color (from_config name config) = true
     ↔ config_has config "group_address_color"
       ∨ config_has config "group_address_color_state")
  ∧ (supports_rgbw (from_config name config) = true
     ↔ config_has config "group_address_rgbw"
       ∨ config_has config "group_address_rgbw_state")
  ∧ (supports_tunable_white (from_config name config) = true
     ↔ config_has config "group_address_tunable_white"
       ∨ config_has config "group_address_tunable_white_state")
  ∧ (supports_color_temperature (from_config name config) = true
     ↔ config_has config "group_address_color_temperature"
       ∨ config_has config "group_address_color_temperature_state").
Proof.
  split; [|split; [|split; [|split]]]; apply initialized_config.
Qed.

(** X3: [from_config] reads the fourteen keys it knows and nothing else:
    adding, changing or removing any other key gives the same light. *)
Theorem from_config_ignores_unknown_keys (name : string) (config : Config)
    (key : string) (v : option Value) :
  key ∉ known_keys ->
  from_config name (<[key := v]> config) = from_config name config
  ∧ from_config name (delete key config) = from_config name config.
Proof.
  intros Hk. unfold known_keys in Hk.
  rewrite !not_elem_of_cons in Hk.
  destruct Hk as (?&?&?&?&?&?&?&?&?&?&?&?&?&?&_).
  unfold from_config, config_get, config_get_default.
  split.
  - by rewrite !lookup_insert_ne by done.
  - by rewrite !lookup_delete_ne by done.
Qed.

Lemma from_config_ignores_unknown_keys_witness :
  from_config "lamp"
    (<["friendly_name" := Some (VStr "Desk")]>
       (<["group_address_switch" := Some (VStr "1/0/1")]> ∅))
  = from_config "lamp" (<["group_address_switch" := Some (VStr "1/0/1")]> ∅).
Proof.
  apply (from_config_ignores_unknown_keys "lamp"
           (<["group_address_switch" := Some (VStr "1/0/1")]> ∅)
           "friendly_name" (Some (VStr "Desk"))).
  compute_done.
Defined.

(** X4: the default of [from_config] replaces a missing key only.  The
    stored [min_kelvin] is [None] exactly when the key is present with
    the value [None], and it is whatever the key holds when the key is
    present; likewise for [max_kelvin]. *)
Theorem from_config_kelvin_present (name : string) (config : Config) :
  (min_kelvin (from_config name config) = None
   ↔ config !! "min_kelvin" = Some None)
  ∧ (max_kelvin (from_config name config) = None
     ↔ config !! "max_kelvin" = Some None)
  ∧ (∀ v, config !! "min_kelvin" = Some v ->
          min_kelvin (from_config name config) = v)
  ∧ (∀ v, config !! "max_kelvin" = Some v ->
          max_kelvin (from_config name config) = v).
Proof.
  unfold from_config, config_get_default. simpl.
  destruct (config !! "min_kelvin") as [[a|]|],
    (config !! "max_kelvin") as [[b|]|];
    repeat split; intros; simplify_eq; done.
Qed.

Lemma from_config_kelvin_present_witness :
  min_kelvin (from_config "lamp" (<["min_kelvin" := None]> ∅)) = None
  ∧ max_kelvin (from_config "lamp" (<["max_kelvin" := Some (VInt 6500)]> ∅))
    = Some (VInt 6500).
Proof.
  split.
  - apply (proj1 (from_config_kelvin_present "lamp"
                    (<["min_kelvin" := None]> ∅))).
    reflexivity.
  - apply (proj2 (proj2 (proj2 (from_config_kelvin_present "lamp"
                    (<["max_kelvin" := Some (VInt 6500)]> ∅))))).
    reflexivity.
Defined.

(** ** Inbound routing with any number of matching slots *)

Lemma light_ext (a b : Light) :
  name a = name b -> min_kelvin a = min_kelvin b ->
  max_kelvin a = max_kelvin b -> (∀ f, slot f a = slot f b) -> a = b.
Proof.
  intros Hn Hmin Hmax Hs. destruct a, b. simpl in *.
  pose proof (Hs Switch). pose proof (Hs Brightness). pose proof (Hs Color).
  pose proof (Hs Rgbw). pose proof (Hs TunableWhite).
  pose proof (Hs ColorTemperature). simpl in *. by subst.
Qed.

Lemma process_run_deliver `{Codec} f t self :
  process f t self
  = {| outcome := Returned tt;
       after := set_slot f (deliver t self f) self;
       trace :=
         CallProcess f t
         :: (if notifies t self f then [AfterUpdate (name self)] else []) |}.
Proof.
  rewrite process_run. unfold deliver, notifies, process_slot, matches, cached.
  by destruct (has_group_address (slot f self) (destination t)).
Qed.

Lemma deliver_set_slot_ne `{Codec} t f g rv self :
  f ≠ g -> deliver t (set_slot f rv self) g = deliver t self g.
Proof.
  intros Hne. unfold deliver, matches. by rewrite slot_set_slot_ne.
Qed.

Lemma notifies_set_slot_ne `{Codec} t f g rv self :
  f ≠ g -> notifies t (set_slot f rv self) g = notifies t self g.
Proof.
  intros Hne. unfold notifies, matches, cached. by rewrite slot_set_slot_ne.
Qed.

Lemma filter_agree {A} (P Q : A -> Prop) `{!∀ x, Decision (P x)}
    `{!∀ x, Decision (Q x)} (l : list A) :
  (∀ x, x ∈ l -> P x ↔ Q x) -> filter P l = filter Q l.
Proof.
  induction l as [|x l IH]; intros Hpq; [done|].
  rewrite !filter_cons.
  rewrite IH by (intros y Hy; apply Hpq; by right).
  destruct (decide (P x)) as [Hp|Hp], (decide (Q x)) as [Hq|Hq]; try done;
    exfalso; [apply Hq|apply Hp]; by apply (Hpq x); [left|].
Qed.

Lemma filter_nobody {A} (P : A -> Prop) `{!∀ x, Decision (P x)} (l : list A) :
  (∀ x, x ∈ l -> ¬ P x) -> filter P l = [].
Proof.
  induction l as [|x l IH]; intros Hp; [done|].
  rewrite filter_cons_False by (apply Hp; left).
  apply IH. intros y Hy. apply Hp. by right.
Qed.

(** Presenting a telegram to distinct slots, one after the other, is the
    same as presenting it to each of them on the light as it was. *)
Lemma for_each_deliver `{Codec} fs t :
  NoDup fs ->
  ∀ self,
    (∀ g, slot g (after (for_each fs (λ f, process f t) self))
          = if decide (g ∈ fs) then deliver t self g else slot g self)
    ∧ callbacks (trace (for_each fs (λ f, process f t) self))
      = length (filter (λ f, notifies t self f = true) fs).
Proof.
  induction 1 as [|f fs Hf Hnd IH]; intros self; [done|].
  simpl. rewrite bind_after, bind_trace, process_run_deliver. simpl.
  destruct (IH (set_slot f (deliver t self f) self)) as [Hs Hc]. split.
  - intros g. rewrite Hs. destruct (decide (g = f)) as [->|Hgf].
    + rewrite decide_False by done. rewrite decide_True by left.
      apply slot_set_slot_eq.
    + destruct (decide (g ∈ fs)) as [Hin|Hin].
      * rewrite decide_True by (by right). by apply deliver_set_slot_ne.
      * rewrite decide_False by (by intros [->|?]%elem_of_cons).
        by apply slot_set_slot_ne.
  - change (CallProcess f t :: ?a ++ ?b) with ([CallProcess f t] ++ (a ++ b)).
    rewrite !callbacks_app, Hc.
    assert (filter (λ g, notifies t (set_slot f (deliver t self f) self) g = true) fs
            = filter (λ g, notifies t self g = true) fs) as ->.
    { apply filter_agree. intros g Hg.
      rewrite notifies_set_slot_ne; [done|]. by intros ->. }
    rewrite filter_cons. destruct (notifies t self f) eqn:Hn.
    + by rewrite decide_True by done.
    + by rewrite decide_False by done.
Qed.

Lemma process_group_write_delivers_aux `{Codec} t self :
  (∀ f, slot f (after (process_group_write t self)) = deliver t self f)
  ∧ same_configuration self (after (process_group_write t self)).
Proof.
  split; [|apply (run_op_same_configuration (OpProcessGroupWrite t))].
  destruct (for_each_deliver _iter_remote_values t NoDup_iter_remote_values self)
    as [Hs _].
  intros f. unfold process_group_write. rewrite Hs.
  by rewrite decide_True by apply elem_of_iter_remote_values.
Qed.

(** X5: [process_group_write] treats the six slots independently, also
    when several of them are configured with the address of the
    telegram: afterwards every matching slot caches its own decoding of
    the payload, every other slot is as before, and the device callback
    has been invoked once for each matching slot whose decoded value
    differs from what it cached before. *)
Theorem process_group_write_delivers `{Codec} (t : Telegram) (self : Light) :
  let r := process_group_write t self in
  (∀ f, slot f (after r) = deliver t self f)
  ∧ (∀ f, cached (after r) f
          = if matches t self f then Some (from_knx f (payload t))
            else cached self f)
  ∧ callbacks (trace r)
    = length (filter (λ f, notifies t self f = true) _iter_remote_values).
Proof.
  intros r.
  destruct (for_each_deliver _iter_remote_values t NoDup_iter_remote_values self)
    as [_ Hc].
  destruct (process_group_write_delivers_aux t self) as [Hd _].
  fold r in Hd.
  split; [exact Hd|]. split; [|exact Hc].
  intros f. unfold cached. rewrite Hd. unfold deliver.
  by destruct (matches t self f).
Qed.

Lemma process_group_write_delivers_witness :
  let r := @process_group_write example_codec (telegram_to "4/0/2" [77]) crossed in
  current_brightness (after r) = Some (VInt 77)
  ∧ current_tunable_white (after r) = Some (VInt 77)
  ∧ callbacks (trace r) = 2%nat.
Proof.
  intros r.
  destruct (@process_group_write_delivers example_codec
              (telegram_to "4/0/2" [77]) crossed) as (_ & Hv & Hc).
  split; [exact (Hv Brightness)|]. split; [exact (Hv TunableWhite)|exact Hc].
Defined.

Lemma matches_deliver `{Codec} t self r :
  (∀ f, slot f r = deliver t self f) ->
  ∀ f, matches t r f = matches t self f.
Proof.
  intros Hd f. unfold matches. rewrite Hd. unfold deliver, matches.
  destruct (has_group_address (slot f self) (destination t)) eqn:Hm; [|done].
  exact Hm.
Qed.

(** X6: delivering the same telegram a second time changes nothing and
    notifies nobody: the light after the second [process_group_write] is
    the light after the first, and the callback count of the second is
    zero. *)
Theorem process_group_write_twice `{Codec} (t : Telegram) (self : Light) :
  let once := after (process_group_write t self) in
  after (process_group_write t once) = once
  ∧ callbacks (trace (process_group_write t once)) = 0%nat.
Proof.
  intros once.
  destruct (process_group_write_delivers_aux t self) as [Hd1 Hcfg1].
  fold once in Hd1, Hcfg1.
  destruct (process_group_write_delivers_aux t once) as [Hd2 Hcfg2].
  pose proof (matches_deliver t self once Hd1) as Hm.
  split.
  - destruct Hcfg2 as (Hn & Hmin & Hmax & _).
    apply light_ext; [done|done|done|].
    intros f. rewrite Hd2. unfold deliver. rewrite Hm.
    destruct (matches t self f) eqn:Hmf; [|done].
    rewrite Hd1. unfold deliver. by rewrite Hmf.
  - destruct (for_each_deliver _iter_remote_values t NoDup_iter_remote_values
                once) as [_ Hc].
    fold (process_group_write t once) in Hc. rewrite Hc.
    rewrite filter_nobody; [done|].
    intros f _. apply not_true_iff_false. unfold notifies. rewrite Hm.
    destruct (matches t self f) eqn:Hmf; [|done]. simpl.
    unfold cached. rewrite Hd1. unfold deliver. rewrite Hmf. simpl.
    rewrite bool_decide_eq_false_2; [done|]. by intros Hne.
Qed.

(** X13: the switch state after a telegram: if the switch slot matches,
    [state] is the truth value of the decoded payload, otherwise it is
    what it was; a light never switched by a telegram reports [False]. *)
Theorem state_follows_switch_telegrams `{Codec} (t : Telegram) (self : Light) :
  state (after (process_group_write t self))
  = (if matches t self Switch
     then truthy (Some (from_knx Switch (payload t)))
     else state self)
  ∧ ∀ name a, state (__init__ name a) = false.
Proof.
  split; [|done].
  destruct (process_group_write_delivers_aux t self) as [Hd _].
  unfold state. change (switch ?l) with (slot Switch l).
  rewrite Hd. unfold deliver. by destruct (matches t self Switch).
Qed.

(** ** Reading the colour on lights that exist *)

Lemma reachable_rgbw_value `{Codec} (self : Light) :
  reachable self ->
  value (rgbw self) = None ∨ ∃ p, value (rgbw self) = Some (from_knx Rgbw p).
Proof.
  induction 1 as [name a|o self _ IH]; [by left|].
  destruct o; unfold run_op;
    rewrite ?set_brightness_after, ?set_color_after, ?set_tunable_white_after,
      ?set_color_temperature_after, ?do_after;
    try exact IH.
  destruct (process_group_write_delivers_aux telegram self) as [Hd _].
  change (rgbw ?l) with (slot Rgbw l). rewrite Hd. unfold deliver.
  destruct (matches telegram self Rgbw); [|exact IH].
  right. by eexists.
Qed.

(** X9: when the RGBW decoder always yields at least four components,
    as the RGBW frame does, [current_color] raises on no light that the
    constructor and the operations can produce: it returns the cached
    plain colour with [None] when RGBW is not supported, the pair of two
    [None] while no RGBW value has been received, and otherwise the
    first three components and the fourth of the cached value. *)
Theorem current_color_returns_on_reachable `{Codec} (self : Light) :
  (∀ p, ∃ r g b w rest, from_knx Rgbw p = VSeq (r :: g :: b :: w :: rest)) ->
  reachable self ->
  (supports_rgbw self = false
   ∧ current_color self = Returned (value (color self), None))
  ∨ (supports_rgbw self = true ∧ value (rgbw self) = None
     ∧ current_color self = Returned (None, None))
  ∨ (∃ r g b w rest,
       supports_rgbw self = true
       ∧ value (rgbw self) = Some (VSeq (r :: g :: b :: w :: rest))
       ∧ current_color self = Returned (Some (VSeq [r; g; b]), Some (VInt w))).
Proof.
  intros Hfour Hr. unfold current_color.
  destruct (supports_rgbw self) eqn:Hs; [|by left].
  right. destruct (reachable_rgbw_value self Hr) as [Hv|[p Hv]].
  - left. by rewrite Hv.
  - right. destruct (Hfour p) as (r & g & b & w & rest & Hp).
    exists r, g, b, w, rest. rewrite Hv, Hp. by repeat split.
Qed.

Lemma current_color_returns_on_reachable_witness :
  let lit :=
    after (@run_op four_channel_codec
             (OpProcessGroupWrite (telegram_to "2/0/4" [1; 2])) strip) in
  current_color lit = Returned (Some (VSeq [1; 2; 0]), Some (VInt 0)).
Proof.
  intros lit.
  destruct (@current_color_returns_on_reachable four_channel_codec lit)
    as [[Hs _]|[(_ & Hv & _)|(r & g & b & w & rest & _ & Hv & Hc)]].
  - intros p. by repeat eexists.
  - apply (@reachable_step four_channel_codec).
    apply (@reachable_init four_channel_codec).
  - discriminate Hs.
  - discriminate Hv.
  - rewrite Hc. injection Hv as <- <- <- <- _. reflexivity.
Defined.

(** ** Numeric actions and plain colours *)

(** X10: a numeric action hands the parsed integer to the slot as it is:
    there is no range check between [do] and [set], so negative numbers
    and numbers beyond 255 go through.  On a light without the feature
    the warning is the one of the setter, not the one for an unknown
    action. *)
Theorem do_numeric_forwards_unchecked (s : string) (n : Z) (self : Light) :
  Py.int s = Some n ->
  do ("brightness:" +:+ s) self
  = (if supports_brightness self
     then {| outcome := Returned tt; after := self;
             trace := [CallSet Brightness (VInt n)] |}
     else warned "Dimming not supported for device %s" self)
  ∧ do ("tunable_white:" +:+ s) self
    = (if supports_tunable_white self
       then {| outcome := Returned tt; after := self;
               trace := [CallSet TunableWhite (VInt n)] |}
       else warned "Tunable white not supported for device %s" self)
  ∧ do ("color_temperature:" +:+ s) self
    = (if supports_color_temperature self
       then {| outcome := Returned tt; after := self;
               trace := [CallSet ColorTemperature (VInt n)] |}
       else warned "Absolute Color Temperature not supported for device %s"
              self).
Proof.
  intros Hs.
  rewrite do_brightness, do_tunable_white, do_color_temperature.
  rewrite !(int_run s n self _ Hs).
  unfold set_brightness, set_tunable_white, set_color_temperature, mbind,
    M_bind. simpl.
  destruct (supports_brightness self), (supports_tunable_white self),
    (supports_color_temperature self); by repeat split.
Qed.

Lemma do_numeric_forwards_unchecked_witness :
  do "brightness:-5" dimmer
  = {| outcome := Returned tt; after := dimmer;
       trace := [CallSet Brightness (VInt (-5))] |}
  ∧ do "color_temperature:99999" dimmer
    = warned "Absolute Color Temperature not supported for device %s" dimmer.
Proof.
  split.
  - apply (proj1 (do_numeric_forwards_unchecked "-5" (-5) dimmer eq_refl)).
  - apply (proj2 (proj2 (do_numeric_forwards_unchecked "99999" 99999 dimmer
                           eq_refl))).
Defined.

(** X11: [set_color] without a white value only ever addresses the plain
    colour slot: with [supports_color] it calls [set] there with the
    colour as given, otherwise it warns; it never calls the rgbw slot,
    also when RGBW is the only colour feature the light supports. *)
Theorem set_color_without_white (c : list Z) (self : Light) :
  set_color c None self
  = (if supports_color self
     then {| outcome := Returned tt; after := self;
             trace := [CallSet Color (VSeq c)] |}
     else warned "Colors not supported for device %s" self)
  ∧ ∀ v, CallSet Rgbw v ∉ trace (set_color c None self).
Proof.
  unfold set_color, mbind, M_bind. simpl.
  destruct (supports_color self); simpl; (split; [done|]);
    intros v Hin; apply list_elem_of_singleton in Hin; discriminate Hin.
Qed.

(** ** White space around the number *)

Lemma append_cons c (p s : string) : String c p +:+ s = String c (p +:+ s).
Proof. reflexivity. Qed.

Lemma isspace_not_digit c :
  Py.isspace c = true ->
  Py.digit_value c = None ∧ Py.is_underscore c = false.
Proof. destruct c as [[] [] [] [] [] [] [] []]; by intros Hc. Qed.

Lemma all_space_app (a b : string) :
  Py.all_space (a +:+ b) = Py.all_space a && Py.all_space b.
Proof.
  induction a as [|c a IH]; [done|].
  rewrite append_cons. simpl. rewrite IH. by destruct (Py.isspace c).
Qed.

Lemma lstrip_leading (w s : string) :
  Py.all_space w = true -> Py.lstrip (w +:+ s) = Py.lstrip s.
Proof.
  induction w as [|c w IH]; intros Hw; [done|].
  simpl in Hw. apply andb_true_iff in Hw as [Hc Hw].
  rewrite append_cons. simpl. rewrite Hc. by apply IH.
Qed.

Lemma digits_trailing (w u : string) :
  Py.all_space w = true ->
  ∀ acc prev, Py.digits acc prev (u +:+ w) = Py.digits acc prev u.
Proof.
  intros Hw. induction u as [|c u IH]; intros acc prev.
  - destruct w as [|c w]; [done|]. simpl in Hw.
    pose proof Hw as Hw'. apply andb_true_iff in Hw' as [Hc _].
    destruct (isspace_not_digit c Hc) as [Hd Hu].
    change ("" +:+ String c w) with (String c w).
    simpl. rewrite Hd, Hu, Hw. by destruct prev.
  - rewrite append_cons. simpl.
    destruct (Py.digit_value c); [apply IH|].
    destruct (Py.is_underscore c); [destruct prev; [done|apply IH]|].
    destruct prev; [done|].
    rewrite all_space_app, Hw. by rewrite andb_true_r.
Qed.

Lemma unsigned_trailing (w u : string) :
  Py.all_space w = true -> Py.unsigned (u +:+ w) = Py.unsigned u.
Proof.
  intros Hw. destruct u as [|c u].
  - destruct w as [|c w]; [done|]. simpl in Hw.
    apply andb_true_iff in Hw as [Hc _].
    destruct (isspace_not_digit c Hc) as [Hd _].
    change ("" +:+ String c w) with (String c w). simpl. by rewrite Hd.
  - rewrite append_cons. simpl.
    destruct (Py.digit_value c); [by apply digits_trailing|done].
Qed.

(** The part of [int] after the leading white space. *)
Lemma int_lstrip (s : string) :
  Py.int s
  = match Py.lstrip s with
    | String "+" s' => Py.unsigned s'
    | String "-" s' => Z.opp <$> Py.unsigned s'
    | s' => Py.unsigned s'
    end.
Proof. reflexivity. Qed.

Lemma int_trailing (w s : string) :
  Py.all_space w = true -> Py.int (s +:+ w) = Py.int s.
Proof.
  intros Hw. induction s as [|c s IH].
  - change ("" +:+ w) with w. rewrite !int_lstrip.
    rewrite <- (lstrip_leading w "" Hw).
    assert (w +:+ "" = w) as ->; [|done].
    clear. induction w as [|c w IH]; [done|]. rewrite append_cons. by f_equal.
  - rewrite append_cons. destruct (Py.isspace c) eqn:Hc.
    + rewrite !int_lstrip. simpl. rewrite Hc. rewrite <- !int_lstrip. exact IH.
    + rewrite !int_lstrip. simpl. rewrite Hc.
      pose proof (unsigned_trailing w s Hw) as Hu.
      pose proof (unsigned_trailing w (String c s) Hw) as Hu'.
      rewrite append_cons in Hu'.
      destruct c as [[] [] [] [] [] [] [] []]; by rewrite ?Hu, ?Hu'.
Qed.

Lemma int_leading (w s : string) :
  Py.all_space w = true -> Py.int (w +:+ s) = Py.int s.
Proof. intros Hw. by rewrite !int_lstrip, lstrip_leading. Qed.

(** X12: white space before and after the number of a numeric action is
    ignored, as [int] ignores it: for white space [w1], [w2] and a text
    [s] that [int] reads as [n], [do("brightness:" + w1 + s + w2)] is
    [set_brightness(n)], and likewise for the other two prefixes. *)
Theorem do_ignores_space_around_number (w1 w2 s : string) (n : Z)
    (self : Light) :
  Py.all_space w1 = true ->
  Py.all_space w2 = true ->
  Py.int s = Some n ->
  Py.int (w1 +:+ s +:+ w2) = Some n
  ∧ do ("brightness:" +:+ w1 +:+ s +:+ w2) self = set_brightness (VInt n) self
  ∧ do ("tunable_white:" +:+ w1 +:+ s +:+ w2) self
    = set_tunable_white (VInt n) self
  ∧ do ("color_temperature:" +:+ w1 +:+ s +:+ w2) self
    = set_color_temperature (VInt n) self.
Proof.
  intros Hw1 Hw2 Hs.
  assert (Py.int (w1 +:+ s +:+ w2) = Some n) as Hint.
  { by rewrite int_leading, int_trailing. }
  split; [exact Hint|].
  rewrite do_brightness, do_tunable_white, do_color_temperature.
  by rewrite !(int_run _ n self _ Hint).
Qed.

Lemma do_ignores_space_around_number_witness :
  do "brightness: 50 " dimmer = set_brightness (VInt 50) dimmer.
Proof.
  apply (do_ignores_space_around_number " " " " "50" 50 dimmer);
    reflexivity.
Defined.

(** ** Cached values and addresses *)

(** X14: on every light that the constructor and the operations can
    produce, a slot that caches a value was constructed with an address:
    for each of the six slots, a cached value other than [None] implies
    that the slot is initialized and that its write address or its state
    address is present. *)
Theorem cached_value_needs_address `{Codec} (self : Light) (f : Feature) :
  reachable self ->
  cached self f ≠ None ->
  initialized (slot f self) = true
  ∧ (is_Some (group_address (slot f self))
     ∨ is_Some (group_address_state (slot f self))).
Proof.
  intros Hr Hc. destruct (reachable_ok self Hr f) as [Hflag Hnone].
  assert (initialized (slot f self) = true) as Hi.
  { destruct (initialized (slot f self)); [done|]. by destruct Hc, Hnone. }
  split; [exact Hi|]. rewrite Hflag in Hi.
  apply orb_true_iff in Hi. by rewrite !bool_decide_eq_true in Hi.
Qed.

Lemma cached_value_needs_address_witness :
  let lit :=
    after (@run_op example_codec
             (OpProcessGroupWrite (telegram_to "1/1/2" [128])) dimmer) in
  cached lit Brightness = Some (VInt 128)
  ∧ initialized (slot Brightness lit) = true.
Proof.
  intros lit. split; [reflexivity|].
  apply (@cached_value_needs_address example_codec lit Brightness).
  - apply (@reachable_step example_codec). apply (@reachable_init example_codec).
  - discriminate.
Defined.
